(** * featureform client enums: a shallow embedding of
      [client/src/featureform/enums.py]

    The module declares string-backed enumerations and three pieces of
    logic: membership of a raw value in [ScalarType], the cross-type
    equality and protocol code of [ComputationMode], and the classification
    of a file path by [FileFormat].

    Python strings are modelled by [string]; over byte strings the two
    string operations the module relies on (cutting after the last ['/'] and
    comparing a literal suffix) agree with their code-point versions on
    UTF-8 text.  Exceptions are modelled by an error monad, [result].  The
    operating-system dependent helpers ([os.path], [fnmatch]) are taken with
    their POSIX behaviour. *)

From Stdlib Require Import String Ascii List ZArith Bool Lia.
Import ListNotations.
Local Open Scope string_scope.

(** ** Enumerations (declaration order is constructor order) *)

Inductive ScalarType : Set :=
| NIL | INT | INT32 | INT64 | FLOAT32 | FLOAT64 | STRING | BOOL | DATETIME.

Inductive ResourceStatus : Set :=
| NO_STATUS | CREATED | PENDING | READY | FAILED.

Inductive ComputationMode : Set :=
| PRECOMPUTED | CLIENT_COMPUTED.

Inductive FileFormat : Set :=
| CSV | PARQUET.

Definition ScalarType_value (e : ScalarType) : string :=
  match e with
  | NIL => ""
  | INT => "int"
  | INT32 => "int32"
  | INT64 => "int64"
  | FLOAT32 => "float32"
  | FLOAT64 => "float64"
  | STRING => "string"
  | BOOL => "bool"
  | DATETIME => "datetime"
  end.

Definition ResourceStatus_value (e : ResourceStatus) : string :=
  match e with
  | NO_STATUS => "NO_STATUS"
  | CREATED => "CREATED"
  | PENDING => "PENDING"
  | READY => "READY"
  | FAILED => "FAILED"
  end.

Definition ComputationMode_value (e : ComputationMode) : string :=
  match e with
  | PRECOMPUTED => "PRECOMPUTED"
  | CLIENT_COMPUTED => "CLIENT_COMPUTED"
  end.

Definition FileFormat_value (e : FileFormat) : string :=
  match e with
  | CSV => "csv"
  | PARQUET => "parquet"
  end.

(** Iterating an enumeration class ([for e in cls]) yields its members in
    declaration order. *)
Definition ScalarType_members : list ScalarType :=
  [NIL; INT; INT32; INT64; FLOAT32; FLOAT64; STRING; BOOL; DATETIME].

Definition ComputationMode_members : list ComputationMode :=
  [PRECOMPUTED; CLIENT_COMPUTED].

Definition FileFormat_members : list FileFormat :=
  [CSV; PARQUET].

(** ** Python values, exceptions, and the error monad *)

(** The fragment of Python's values that the module's methods are applied
    to here: [None], integers, strings and the members of
    [ComputationMode].  Nothing in the module enforces its annotations at
    run time ([ScalarType], [ComputationMode] and [FileFormat] are not
    decorated with [typechecked]), so a method can be handed any of them.
    The fragment is closed: objects with an [__eq__], [__hash__] or
    [__fspath__] of their own, and [bytes], are outside it, and a statement
    over [pyval] speaks of these four kinds of value only. *)
Inductive pyval : Set :=
| VNone
| VInt (z : Z)
| VStr (s : string)
| VMode (m : ComputationMode).

Inductive message : Set :=
| Text (s : string)
    (* a message the module builds itself *)
| NotAValid (value : pyval) (cls : string)
    (* enum lookup: f"{value!r} is not a valid {cls}" *)
| NotAPath (value : pyval).
    (* os.fspath: "expected str, bytes or os.PathLike object, not ..." *)

Inductive exn : Set :=
| ValueError (msg : message)
| TypeError (msg : message).

Inductive result (A : Type) : Type :=
| Ok (a : A)
| Raise (e : exn).

Arguments Ok {A} a.
Arguments Raise {A} e.

Definition bind {A B : Type} (r : result A) (k : A -> result B) : result B :=
  match r with
  | Ok a => k a
  | Raise e => Raise e
  end.

Notation "x <- c ;; k" := (bind c (fun x => k))
  (at level 61, c at next level, right associativity).

(** [try: body; except ValueError: handler] *)
Definition try_except_ValueError {A : Type} (body : result A) (handler : result A)
  : result A :=
  match body with
  | Ok a => Ok a
  | Raise (ValueError _) => handler
  | Raise e => Raise e
  end.

(** ** Python's [==] on the value fragment *)

(** [s == other] for a [str] [s].  [str.__eq__] answers only for another
    [str]; otherwise Python tries the reflected [other.__eq__(s)], which for
    a [ComputationMode] member is the method at enums.py:75 and compares the
    member's value with [s]; [None] and [int] decline as well and the
    comparison falls back to identity, which is false. *)
Definition str_eq (s : string) (other : pyval) : bool :=
  match other with
  | VStr t => String.eqb s t
  | VMode m => String.eqb (ComputationMode_value m) s
  | VNone | VInt _ => false
  end.

(** enums.py:75  [def __eq__(self, other): return self.value == other] *)
Definition ComputationMode_eq (self : ComputationMode) (other : pyval) : bool :=
  str_eq (ComputationMode_value self) other.

(** [a == b]: the left operand's [__eq__] first; where it declines, the
    right operand's.  On the four kinds of value of the fragment no
    [__eq__] raises, so the comparison is a boolean. *)
Definition py_eq (a b : pyval) : bool :=
  match a with
  | VMode m => ComputationMode_eq m b
  | VStr s => str_eq s b
  | VInt x =>
      match b with
      | VInt y => Z.eqb x y
      | VMode m => ComputationMode_eq m a
      | VNone | VStr _ => false
      end
  | VNone =>
      match b with
      | VNone => true
      | VMode m => ComputationMode_eq m a
      | VInt _ | VStr _ => false
      end
  end.

(** ** ScalarType *)

(** [cls(value)]: the member whose value equals [value], or [ValueError].
    Values are unique, so the lookup in the class's value map is the first
    hit in declaration order. *)
Definition ScalarType_call (value : pyval) : result ScalarType :=
  match find (fun e => py_eq (VStr (ScalarType_value e)) value) ScalarType_members with
  | Some e => Ok e
  | None => Raise (ValueError (NotAValid value "ScalarType"))
  end.

(** enums.py:35-41 *)
Definition ScalarType_has_value (value : pyval) : result bool :=
  try_except_ValueError
    (_ <- ScalarType_call value ;; Ok true)
    (Ok false).

(** enums.py:43-45  [[e.value for e in cls]] *)
Definition ScalarType_get_values : list string :=
  map ScalarType_value ScalarType_members.

(** ** ComputationMode *)

(** The generated protocol module [featureform.proto.metadata_pb2] is not
    part of the sources at hand; the two integer codes [proto] reads from its
    [ComputationMode] enumeration are taken as parameters. *)
Record metadata_pb2 : Set := {
  pb_PRECOMPUTED : Z;
  pb_CLIENT_COMPUTED : Z
}.

(** enums.py:78-82.  [self] is whatever the method is invoked on.  The
    [if]/[elif] has no [else]: falling off the end returns [None]. *)
Definition ComputationMode_proto (pb : metadata_pb2) (self : pyval) : result pyval :=
  if py_eq self (VMode PRECOMPUTED) then Ok (VInt (pb_PRECOMPUTED pb))
  else if py_eq self (VMode CLIENT_COMPUTED) then Ok (VInt (pb_CLIENT_COMPUTED pb))
  else Ok VNone.

(** Membership of a value in the closed set of [ComputationMode]. *)
Definition is_ComputationMode (v : pyval) : bool :=
  match v with
  | VMode _ => true
  | _ => false
  end.

(** ** [os.path] (POSIX flavour) *)

Module posixpath.

Definition sep : ascii := "/"%char.

(** [os.fspath] on the fragment: a [str] is returned as it is; [None], an
    integer and a [ComputationMode] member are no paths and raise
    [TypeError].  ([bytes] and [os.PathLike] objects, which [os.fspath]
    accepts as well, are outside the fragment.) *)
Definition fspath (p : pyval) : result string :=
  match p with
  | VStr s => Ok s
  | _ => Raise (TypeError (NotAPath p))
  end.

(** [str.rfind] of one character: the highest index holding it, or [-1].
    [pos] is the index of the head of [s], [found] the last hit so far. *)
Fixpoint rfind_from (c : ascii) (s : string) (pos found : Z) : Z :=
  match s with
  | EmptyString => found
  | String d rest =>
      rfind_from c rest (pos + 1) (if Ascii.eqb d c then pos else found)
  end.

Definition rfind (s : string) (c : ascii) : Z := rfind_from c s 0 (-1).

Fixpoint drop (n : nat) (s : string) : string :=
  match n, s with
  | O, _ => s
  | S _, EmptyString => EmptyString
  | S n', String _ rest => drop n' rest
  end.

(** The slice [s[i:]]; a negative [i] counts from the end. *)
Definition slice_from (s : string) (i : Z) : string :=
  let start := if (i <? 0)%Z then Z.max (Z.of_nat (String.length s) + i) 0 else i in
  drop (Z.to_nat start) s.

(** [posixpath.basename]:
    [p = os.fspath(p); i = p.rfind(sep) + 1; return p[i:]] *)
Definition basename (p : pyval) : result string :=
  p <- fspath p ;;
  let i := (rfind p sep + 1)%Z in
  Ok (slice_from p i).

(** [posixpath.normcase] leaves a string as it is. *)
Definition normcase (s : string) : string := s.

End posixpath.

(** ** [fnmatch] *)

Module fnmatch.

(** The pattern language: [*] any run of characters, [?] any one
    character, any other character itself.  Bracket expressions [[...]] are
    not modelled: [translate] reads a ['['] as the literal character, which
    is what Python does when no [']'] follows.  The patterns this module
    is used with, ["*." ++ value], hold no bracket (see
    [FileFormat_patterns_plain]). *)
Inductive token : Set :=
| Star
| AnyChar
| Lit (c : ascii).

(** [fnmatch.translate], as tokens; a run of [*] is kept as one. *)
Fixpoint translate (pat : string) : list token :=
  match pat with
  | EmptyString => []
  | String c rest =>
      if Ascii.eqb c "*" then
        match translate rest with
        | (Star :: _) as res => res
        | res => Star :: res
        end
      else if Ascii.eqb c "?" then AnyChar :: translate rest
      else Lit c :: translate rest
  end.

(** A full match of [name] against the tokens (the compiled pattern is
    anchored at both ends, and [.] matches newlines too). *)
Fixpoint matches (toks : list token) (name : string) {struct toks} : bool :=
  match toks with
  | [] =>
      match name with
      | EmptyString => true
      | String _ _ => false
      end
  | Lit c :: toks' =>
      match name with
      | EmptyString => false
      | String d rest => Ascii.eqb c d && matches toks' rest
      end
  | AnyChar :: toks' =>
      match name with
      | EmptyString => false
      | String _ rest => matches toks' rest
      end
  | Star :: toks' =>
      (fix star (name : string) : bool :=
         matches toks' name
         || match name with
            | EmptyString => false
            | String _ rest => star rest
            end) name
  end.

(** No character of the pattern opens a bracket expression. *)
Fixpoint bracket_free (pat : string) : bool :=
  match pat with
  | EmptyString => true
  | String c rest => negb (Ascii.eqb c "[") && bracket_free rest
  end.

(** [fnmatch.fnmatchcase(name, pat)] *)
Definition fnmatchcase (name pat : string) : bool :=
  matches (translate pat) name.

(** [fnmatch.fnmatch(name, pat)]: both arguments go through
    [os.path.normcase] first. *)
Definition fnmatch (name pat : string) : bool :=
  fnmatchcase (posixpath.normcase name) (posixpath.normcase pat).

End fnmatch.

(** ** FileFormat *)

(** [f"*.{file_format.value}"] *)
Definition FileFormat_pattern (file_format : FileFormat) : string :=
  "*." ++ FileFormat_value file_format.

(** The loop of enums.py:116-120 over the members still to be tried. *)
Fixpoint is_supported_loop (file_name : string) (formats : list FileFormat) : bool :=
  match formats with
  | [] => false
  | file_format :: rest =>
      if fnmatch.fnmatch file_name (FileFormat_pattern file_format)
      then true
      else is_supported_loop file_name rest
  end.

(** enums.py:112-120 *)
Definition FileFormat_is_supported (file_path : pyval) : result bool :=
  file_name <- posixpath.basename file_path ;;
  Ok (is_supported_loop file_name FileFormat_members).

(** The loop of enums.py:126-130; [Raise] is the statement after the loop. *)
Fixpoint get_format_loop (file_name : string) (formats : list FileFormat)
  : result string :=
  match formats with
  | [] => Raise (ValueError (Text ("File format not supported: " ++ file_name)))
  | file_format :: rest =>
      if fnmatch.fnmatch file_name (FileFormat_pattern file_format)
      then Ok (FileFormat_value file_format)
      else get_format_loop file_name rest
  end.

(** enums.py:122-130 *)
Definition FileFormat_get_format (file_path : pyval) : result string :=
  file_name <- posixpath.basename file_path ;;
  get_format_loop file_name FileFormat_members.

(** [sep.join(items)] *)
Fixpoint join (sep : string) (items : list string) : string :=
  match items with
  | [] => ""
  | [x] => x
  | x :: (_ :: _) as rest => x ++ sep ++ join sep rest
  end.

(** enums.py:132-134 *)
Definition FileFormat_supported_formats : result string :=
  Ok (join ", " (map FileFormat_value FileFormat_members)).

(** ** Vocabulary of the statements *)

(** [s] ends with [suffix]: some stem precedes it. *)
Definition ends_with (suffix s : string) : Prop :=
  exists stem : string, s = stem ++ suffix.

(** The character [c] occurs in [s]. *)
Fixpoint occurs (c : ascii) (s : string) : bool :=
  match s with
  | EmptyString => false
  | String d rest => Ascii.eqb d c || occurs c rest
  end.

(** The nine canonical strings of [ScalarType]. *)
Definition ScalarType_canonical : list string :=
  [""; "int"; "int32"; "int64"; "float32"; "float64"; "string"; "bool"; "datetime"].

(** The tokens of a pattern made of literal characters only. *)
Fixpoint literal (s : string) : list fnmatch.token :=
  match s with
  | EmptyString => []
  | String c rest => fnmatch.Lit c :: literal rest
  end.

(** [name] is the base name of the path [p]: what follows the last
    separator, or all of [p] when it holds none. *)
Definition is_basename_of (p name : string) : Prop :=
  exists dir : string,
    p = dir ++ name
    /\ occurs posixpath.sep name = false
    /\ (dir = "" \/ ends_with "/" dir).

(** The last character of a string, if it has one. *)
Fixpoint last_char (s : string) : option ascii :=
  match s with
  | EmptyString => None
  | String c EmptyString => Some c
  | String _ rest => last_char rest
  end.

(** * Examples: the functions run *)

Example basename_runs :
  posixpath.basename (VStr "s3://bucket/dir/data.csv") = Ok "data.csv"
  /\ posixpath.basename (VStr "data.csv") = Ok "data.csv"
  /\ posixpath.basename (VStr "dir/") = Ok ""
  /\ posixpath.basename VNone = Raise (TypeError (NotAPath VNone)).
Proof. repeat split; reflexivity. Qed.

Example fnmatch_runs :
  fnmatch.fnmatch "data.csv" "*.csv" = true
  /\ fnmatch.fnmatch "csv" "*.csv" = false
  /\ fnmatch.fnmatch "a.csvx" "*.csv" = false
  /\ fnmatch.fnmatch "a.csv.csv" "*.csv" = true
  /\ fnmatch.fnmatch "abc" "a?c" = true
  /\ fnmatch.fnmatch "abc" "a**c" = true.
Proof. repeat split; reflexivity. Qed.

(** * Strings *)

Lemma append_nil_r (s : string) : s ++ "" = s.
Proof. induction s as [|c s IH]; simpl; [reflexivity | now rewrite IH]. Qed.

Lemma append_assoc (a b c : string) : (a ++ b) ++ c = a ++ (b ++ c).
Proof. induction a as [|x a IH]; simpl; [reflexivity | now rewrite IH]. Qed.

Lemma append_length (a b : string) :
  String.length (a ++ b) = String.length a + String.length b.
Proof. induction a as [|x a IH]; simpl; [reflexivity | now rewrite IH]. Qed.

Lemma occurs_append (c : ascii) (a b : string) :
  occurs c (a ++ b) = occurs c a || occurs c b.
Proof.
  induction a as [|x a IH]; simpl; [reflexivity|].
  rewrite IH. now rewrite orb_assoc.
Qed.

(** * The matcher *)

Section Matcher.

Import fnmatch.

(** Literal tokens match exactly their own string. *)
Lemma matches_literal (lit name : string) :
  matches (literal lit) name = true <-> name = lit.
Proof.
  revert name. induction lit as [|c lit IH]; intros [|d name]; simpl.
  - tauto.
  - split; discriminate.
  - split; discriminate.
  - rewrite andb_true_iff, IH. split.
    + intros [Hc ->]. apply Ascii.eqb_eq in Hc. now subst.
    + intros H. injection H as -> ->. split; [apply Ascii.eqb_refl | reflexivity].
Qed.

(** The unfolding of the star case. *)
Lemma matches_star (toks : list token) (name : string) :
  matches (Star :: toks) name =
    matches toks name
    || match name with
       | EmptyString => false
       | String _ rest => matches (Star :: toks) rest
       end.
Proof. destruct name; reflexivity. Qed.

(** A star matches any stem: what is left must match the remaining
    tokens. *)
Lemma matches_star_iff (toks : list token) (name : string) :
  matches (Star :: toks) name = true
  <-> exists stem rest, name = stem ++ rest /\ matches toks rest = true.
Proof.
  induction name as [|c name IH]; rewrite matches_star, orb_true_iff.
  - split.
    + intros [H | H]; [| discriminate]. now exists "", "".
    + intros (stem & rest & Heq & H). left.
      destruct stem; [| discriminate]. simpl in Heq. now subst.
  - rewrite IH. split.
    + intros [H | (stem & rest & -> & H)].
      * now exists "", (String c name).
      * now exists (String c stem), rest.
    + intros (stem & rest & Heq & H). destruct stem as [|d stem]; simpl in Heq.
      * left. now subst.
      * right. injection Heq as _ ->. now exists stem, rest.
Qed.

(** A star followed by literals matches exactly the names that end with
    the literal text. *)
Lemma matches_star_literal (lit name : string) :
  matches (Star :: literal lit) name = true <-> ends_with lit name.
Proof.
  rewrite matches_star_iff. split.
  - intros (stem & rest & -> & H). apply matches_literal in H. subst. now exists stem.
  - intros [stem ->]. exists stem, lit. split; [reflexivity | now apply matches_literal].
Qed.

End Matcher.

(** * File-format patterns *)

(** The pattern of a format is the star followed by the literal text
    [.<value>]. *)
Lemma FileFormat_pattern_tokens (f : FileFormat) :
  fnmatch.translate (FileFormat_pattern f)
  = fnmatch.Star :: literal ("." ++ FileFormat_value f).
Proof. destruct f; reflexivity. Qed.

(** No pattern the module builds opens a bracket expression. *)
Lemma FileFormat_patterns_plain (f : FileFormat) :
  fnmatch.bracket_free (FileFormat_pattern f) = true.
Proof. destruct f; reflexivity. Qed.

(** [fnmatch] against the pattern of a format is the test for the trailing
    [.<value>], character for character. *)
Lemma fnmatch_pattern_iff (f : FileFormat) (name : string) :
  fnmatch.fnmatch name (FileFormat_pattern f) = true
  <-> ends_with ("." ++ FileFormat_value f) name.
Proof.
  unfold fnmatch.fnmatch, fnmatch.fnmatchcase, posixpath.normcase.
  rewrite FileFormat_pattern_tokens. apply matches_star_literal.
Qed.

(** * The base name *)

Section Basename.

Import posixpath.

Lemma rfind_from_absent (c : ascii) (s : string) (pos found : Z) :
  occurs c s = false -> rfind_from c s pos found = found.
Proof.
  revert pos found. induction s as [|d s IH]; intros pos found H; simpl in *.
  - reflexivity.
  - apply orb_false_iff in H as [Hd Hs]. rewrite Hd. now apply IH.
Qed.

Lemma rfind_from_last (c : ascii) (pre post : string) (pos found : Z) :
  occurs c post = false ->
  rfind_from c (pre ++ String c post) pos found
  = (pos + Z.of_nat (String.length pre))%Z.
Proof.
  intros Hpost. revert pos found.
  induction pre as [|d pre IH]; intros pos found; simpl.
  - rewrite Ascii.eqb_refl, rfind_from_absent by assumption. lia.
  - rewrite IH. lia.
Qed.

(** Either the character is absent, or the string splits at its last
    occurrence. *)
Lemma last_occurrence (c : ascii) (s : string) :
  occurs c s = false
  \/ exists pre post, s = pre ++ String c post /\ occurs c post = false.
Proof.
  induction s as [|d s IH]; simpl.
  - now left.
  - destruct IH as [Habs | (pre & post & -> & Hpost)].
    + destruct (Ascii.eqb d c) eqn:Hd.
      * right. apply Ascii.eqb_eq in Hd. subst. now exists "", s.
      * now left.
    + right. now exists (String d pre), post.
Qed.

Lemma drop_append (pre rest : string) :
  drop (String.length pre) (pre ++ rest) = rest.
Proof. induction pre as [|d pre IH]; simpl; [now destruct rest | exact IH]. Qed.

Lemma slice_from_append (pre rest : string) :
  slice_from (pre ++ rest) (Z.of_nat (String.length pre)) = rest.
Proof.
  unfold slice_from.
  destruct (Z.ltb_spec (Z.of_nat (String.length pre)) 0) as [H | _]; [lia |].
  rewrite Nat2Z.id. apply drop_append.
Qed.

(** A string without separator is its own base name. *)
Lemma basename_plain (name : string) :
  occurs sep name = false -> basename (VStr name) = Ok name.
Proof.
  intros H. unfold basename; simpl. unfold rfind.
  now rewrite rfind_from_absent by assumption.
Qed.

Lemma basename_after_separator (stem name : string) :
  occurs sep name = false ->
  basename (VStr (stem ++ String sep name)) = Ok name.
Proof.
  intros H. unfold basename; simpl. unfold rfind.
  rewrite rfind_from_last by assumption.
  replace (stem ++ String sep name) with ((stem ++ String sep "") ++ name)
    by (rewrite append_assoc; reflexivity).
  replace (0 + Z.of_nat (String.length stem) + 1)%Z
    with (Z.of_nat (String.length (stem ++ String sep ""))).
  2:{ rewrite append_length. simpl. lia. }
  now rewrite slice_from_append.
Qed.

(** [basename] never fails on a string and returns what follows the last
    separator. *)
Lemma basename_spec (p : string) :
  exists name, basename (VStr p) = Ok name /\ is_basename_of p name.
Proof.
  destruct (last_occurrence sep p) as [Habs | (pre & post & -> & Hpost)].
  - exists p. split; [now apply basename_plain |]. exists "". auto.
  - exists post. split; [now apply basename_after_separator |].
    exists (pre ++ String sep ""). split; [now rewrite append_assoc |].
    split; [assumption |]. right. now exists pre.
Qed.

(** [is_basename_of] describes the result of [basename] and nothing else. *)
Lemma basename_iff (p name : string) :
  basename (VStr p) = Ok name <-> is_basename_of p name.
Proof.
  split.
  - intros H. destruct (basename_spec p) as (name' & H' & Hspec).
    rewrite H in H'. injection H' as ->. exact Hspec.
  - intros (dir & -> & Hname & [-> | [stem ->]]).
    + now apply basename_plain.
    + rewrite append_assoc. now apply basename_after_separator.
Qed.

End Basename.

(** * Loops over the members *)

Lemma existsb_find {A : Type} (f : A -> bool) (l : list A) :
  existsb f l = match find f l with Some _ => true | None => false end.
Proof.
  induction l as [|a l IH]; simpl; [reflexivity |].
  destruct (f a); [reflexivity | exact IH].
Qed.

(** The predicate's loop is the disjunction of the tests. *)
Lemma is_supported_loop_existsb (name : string) (formats : list FileFormat) :
  is_supported_loop name formats
  = existsb (fun f => fnmatch.fnmatch name (FileFormat_pattern f)) formats.
Proof.
  induction formats as [|f formats IH]; simpl; [reflexivity |].
  destruct (fnmatch.fnmatch name (FileFormat_pattern f)); [reflexivity | exact IH].
Qed.

(** The accessor's loop stops at the first member whose test succeeds. *)
Lemma get_format_loop_find (name : string) (formats : list FileFormat) :
  get_format_loop name formats
  = match find (fun f => fnmatch.fnmatch name (FileFormat_pattern f)) formats with
    | Some f => Ok (FileFormat_value f)
    | None => Raise (ValueError (Text ("File format not supported: " ++ name)))
    end.
Proof.
  induction formats as [|f formats IH]; simpl; [reflexivity |].
  destruct (fnmatch.fnmatch name (FileFormat_pattern f)); [reflexivity | exact IH].
Qed.

(** The two loops take the same branch at every member. *)
Lemma loops_agree (name : string) (formats : list FileFormat) :
  (is_supported_loop name formats = true
   /\ exists f, In f formats /\ get_format_loop name formats = Ok (FileFormat_value f))
  \/ (is_supported_loop name formats = false
      /\ get_format_loop name formats
         = Raise (ValueError (Text ("File format not supported: " ++ name)))).
Proof.
  induction formats as [|f formats IH]; simpl.
  - now right.
  - destruct (fnmatch.fnmatch name (FileFormat_pattern f)).
    + left. split; [reflexivity |]. exists f. auto.
    + destruct IH as [(Ht & g & Hg & Hfmt) | IH]; [left | now right].
      split; [assumption |]. exists g. auto.
Qed.

(** On a string, both classifier methods run their loop on the base name. *)
Lemma is_supported_on_basename (p name : string) :
  posixpath.basename (VStr p) = Ok name ->
  FileFormat_is_supported (VStr p) = Ok (is_supported_loop name FileFormat_members).
Proof. intros H. unfold FileFormat_is_supported. now rewrite H. Qed.

Lemma get_format_on_basename (p name : string) :
  posixpath.basename (VStr p) = Ok name ->
  FileFormat_get_format (VStr p) = get_format_loop name FileFormat_members.
Proof. intros H. unfold FileFormat_get_format. now rewrite H. Qed.

(** The predicate holds exactly for base names that end with [.csv] or
    [.parquet]. *)
Lemma is_supported_loop_iff (name : string) :
  is_supported_loop name FileFormat_members = true
  <-> ends_with ".csv" name \/ ends_with ".parquet" name.
Proof.
  rewrite is_supported_loop_existsb. simpl.
  rewrite !orb_true_iff, (fnmatch_pattern_iff CSV), (fnmatch_pattern_iff PARQUET).
  simpl. split; [intros [H | [H | H]]; auto; discriminate | intros [H | H]; auto].
Qed.

(** [join] is the standard concatenation with a separator. *)
Lemma join_concat (sep : string) (items : list string) :
  join sep items = String.concat sep items.
Proof.
  induction items as [|x items IH]; [reflexivity |].
  destruct items as [|y items]; [reflexivity |].
  change (x ++ sep ++ join sep (y :: items) = x ++ sep ++ String.concat sep (y :: items)).
  now rewrite IH.
Qed.

(** * ScalarType: membership *)

Lemma ScalarType_canonical_values :
  ScalarType_canonical = map ScalarType_value ScalarType_members.
Proof. reflexivity. Qed.

(** On a string, [has_value] is the search for a member with that value. *)
Lemma has_value_str (s : string) :
  ScalarType_has_value (VStr s)
  = Ok (existsb (fun e => String.eqb (ScalarType_value e) s) ScalarType_members).
Proof.
  unfold ScalarType_has_value, ScalarType_call, try_except_ValueError, bind.
  rewrite existsb_find.
  change (fun e => py_eq (VStr (ScalarType_value e)) (VStr s))
    with (fun e => String.eqb (ScalarType_value e) s).
  now destruct (find _ ScalarType_members).
Qed.

Lemma has_value_true_iff (s : string) :
  ScalarType_has_value (VStr s) = Ok true <-> In s ScalarType_canonical.
Proof.
  rewrite has_value_str, ScalarType_canonical_values, in_map_iff. split.
  - intros H.
    assert (Hex : existsb (fun e => String.eqb (ScalarType_value e) s)
                    ScalarType_members = true) by congruence.
    apply existsb_exists in Hex as (e & He & Heq).
    apply String.eqb_eq in Heq. now exists e.
  - intros (e & Heq & He). f_equal. apply existsb_exists. exists e.
    split; [assumption | now apply String.eqb_eq].
Qed.

Lemma has_value_total (s : string) :
  exists b, ScalarType_has_value (VStr s) = Ok b.
Proof. rewrite has_value_str. eauto. Qed.

(** * The claims *)

(** C1.  For every file path, [get_format] returns the canonical string of
    the first format, in the declaration order CSV then PARQUET, whose
    pattern [*.<ext>] matches the base name of the path; when no format
    matches it raises a [ValueError] whose message carries the base name. *)
Theorem get_format_first_match (p : string) :
  exists name : string,
    is_basename_of p name
    /\ FileFormat_get_format (VStr p)
       = match
           find (fun f => fnmatch.fnmatch name ("*." ++ FileFormat_value f))
                [CSV; PARQUET]
         with
         | Some f => Ok (FileFormat_value f)
         | None => Raise (ValueError (Text ("File format not supported: " ++ name)))
         end.
Proof.
  destruct (basename_spec p) as (name & Hbase & Hspec).
  exists name. split; [exact Hspec |].
  rewrite (get_format_on_basename p name Hbase).
  apply get_format_loop_find.
Qed.

(** C3.  For every string [s], [has_value] answers, and answers true exactly
    when [s] is one of the nine canonical strings; the empty string is
    accepted and case variants of a canonical string are rejected. *)
Theorem has_value_iff_canonical :
  (forall s : string,
      (ScalarType_has_value (VStr s) = Ok true
       <-> In s [""; "int"; "int32"; "int64"; "float32"; "float64";
                 "string"; "bool"; "datetime"])
      /\ (ScalarType_has_value (VStr s) = Ok false
          <-> ~ In s [""; "int"; "int32"; "int64"; "float32"; "float64";
                      "string"; "bool"; "datetime"]))
  /\ ScalarType_has_value (VStr "") = Ok true
  /\ ScalarType_has_value (VStr "INT") = Ok false
  /\ ScalarType_has_value (VStr "Int32") = Ok false
  /\ ScalarType_has_value (VStr "String") = Ok false
  /\ ScalarType_has_value (VStr "DateTime") = Ok false.
Proof.
  split; [| repeat split; reflexivity].
  intros s. split; [apply has_value_true_iff |].
  pose proof (has_value_true_iff s) as Htrue.
  destruct (has_value_total s) as [[|] Hb]; rewrite Hb in *.
  - split; [discriminate |]. intros Hn. exfalso. apply Hn. now apply Htrue.
  - split; [| reflexivity]. intros _ Hin. apply Htrue in Hin. discriminate.
Qed.

(** C4.  Matching is a case-sensitive glob anchored on the literal trailing
    [.<ext>] of the base name: a path is supported exactly when its base
    name ends, character for character, with [.csv] or [.parquet].  So
    [data.csv] and [data.backup.csv] are supported, [data.CSV] and
    [archive.tar.gz] are not. *)
Theorem is_supported_trailing_extension :
  (forall p : string,
      exists name : string,
        is_basename_of p name
        /\ (FileFormat_is_supported (VStr p) = Ok true
            <-> ends_with ".csv" name \/ ends_with ".parquet" name))
  /\ FileFormat_is_supported (VStr "data.csv") = Ok true
  /\ FileFormat_is_supported (VStr "data.CSV") = Ok false
  /\ FileFormat_is_supported (VStr "archive.tar.gz") = Ok false
  /\ FileFormat_is_supported (VStr "data.backup.csv") = Ok true.
Proof.
  split; [| repeat split; reflexivity].
  intros p. destruct (basename_spec p) as (name & Hbase & Hspec).
  exists name. split; [exact Hspec |].
  rewrite (is_supported_on_basename p name Hbase), <- is_supported_loop_iff.
  split; congruence.
Qed.

(** C6.  [get_values] returns the nine canonical strings in declaration
    order, the empty string of NIL first. *)
Theorem get_values_declaration_order :
  ScalarType_get_values
  = [""; "int"; "int32"; "int64"; "float32"; "float64"; "string"; "bool"; "datetime"]
  /\ List.length ScalarType_get_values = 9
  /\ (forall e : ScalarType, In (ScalarType_value e) ScalarType_get_values).
Proof.
  split; [reflexivity |]. split; [reflexivity |].
  intros e. destruct e; simpl; tauto.
Qed.

(** C7.  For every member [m] and every string [s], [m == s] holds exactly
    when [s] is the canonical string of [m]; in particular
    [ComputationMode.PRECOMPUTED == "PRECOMPUTED"]. *)
Theorem ComputationMode_eq_string :
  (forall (m : ComputationMode) (s : string),
      ComputationMode_eq m (VStr s) = true <-> s = ComputationMode_value m)
  /\ ComputationMode_eq PRECOMPUTED (VStr "PRECOMPUTED") = true
  /\ py_eq (VMode PRECOMPUTED) (VStr "PRECOMPUTED") = true
  /\ py_eq (VStr "PRECOMPUTED") (VMode PRECOMPUTED) = true
  /\ ComputationMode_eq PRECOMPUTED (VStr "precomputed") = false.
Proof.
  split; [| repeat split; reflexivity].
  intros m s. unfold ComputationMode_eq, str_eq.
  rewrite String.eqb_eq. split; congruence.
Qed.

(** C8.  [supported_formats] joins the canonical strings of all formats, in
    declaration order, with a comma and a space; for the two formats
    declared that is ["csv, parquet"]. *)
Theorem supported_formats_joined :
  FileFormat_supported_formats
  = Ok (String.concat ", " (map FileFormat_value [CSV; PARQUET]))
  /\ FileFormat_supported_formats = Ok "csv, parquet".
Proof.
  unfold FileFormat_supported_formats. rewrite join_concat.
  split; reflexivity.
Qed.

(** A name that ends with [.<ext>] holds a dot. *)
Lemma ends_with_dot_occurs (ext name : string) :
  ends_with ("." ++ ext) name -> occurs "." name = true.
Proof.
  intros [stem ->]. rewrite occurs_append. simpl. apply orb_true_r.
Qed.

(** C5.  On every string [is_supported] returns a boolean and never raises:
    true when the base name matches the pattern of some format, false
    otherwise, in particular for base names without any dot.  Of the
    classifier's three operations only [get_format] raises. *)
Theorem is_supported_never_raises :
  (forall p : string,
      exists name : string,
        is_basename_of p name
        /\ FileFormat_is_supported (VStr p)
           = Ok (existsb (fun f => fnmatch.fnmatch name ("*." ++ FileFormat_value f))
                         [CSV; PARQUET]))
  /\ (forall (p : string) (e : exn), FileFormat_is_supported (VStr p) <> Raise e)
  /\ (forall p name : string,
         is_basename_of p name -> occurs "." name = false ->
         FileFormat_is_supported (VStr p) = Ok false)
  /\ FileFormat_is_supported (VStr "") = Ok false
  /\ FileFormat_is_supported (VStr "README") = Ok false
  /\ FileFormat_is_supported (VStr "/srv/data.csv/") = Ok false
  /\ FileFormat_get_format (VStr "notes.txt")
     = Raise (ValueError (Text "File format not supported: notes.txt"))
  /\ (exists s : string, FileFormat_supported_formats = Ok s).
Proof.
  split; [| split; [| split]].
  - intros p. destruct (basename_spec p) as (name & Hbase & Hspec).
    exists name. split; [exact Hspec |].
    rewrite (is_supported_on_basename p name Hbase).
    now rewrite is_supported_loop_existsb.
  - intros p e. destruct (basename_spec p) as (name & Hbase & _).
    rewrite (is_supported_on_basename p name Hbase). discriminate.
  - intros p name Hspec Hdot. apply basename_iff in Hspec.
    rewrite (is_supported_on_basename p name Hspec). f_equal.
    apply not_true_is_false. intros H. apply is_supported_loop_iff in H.
    destruct H as [H | H]; apply (ends_with_dot_occurs _ name) in H; congruence.
  - repeat (split; [reflexivity |]). now exists "csv, parquet".
Qed.

(** C9.  On every path the accessor and the predicate agree: [get_format]
    returns a format exactly when [is_supported] returns true, and raises
    exactly when [is_supported] returns false. *)
Theorem get_format_agrees_with_is_supported (p : string) :
  ((exists v : string, FileFormat_get_format (VStr p) = Ok v)
   <-> FileFormat_is_supported (VStr p) = Ok true)
  /\ ((exists e : exn, FileFormat_get_format (VStr p) = Raise e)
      <-> FileFormat_is_supported (VStr p) = Ok false).
Proof.
  destruct (basename_spec p) as (name & Hbase & _).
  rewrite (is_supported_on_basename p name Hbase),
    (get_format_on_basename p name Hbase).
  destruct (loops_agree name FileFormat_members)
    as [(Hs & f & _ & Hg) | (Hs & Hg)]; rewrite Hs, Hg.
  - split; split; try discriminate; eauto. intros [e He]. discriminate.
  - split; split; try discriminate; eauto. intros [v Hv]. discriminate.
Qed.

(** C10.  A base name made of a dot and a registered extension alone is
    supported, because the star matches the empty stem: [.csv] is supported
    and its format is [csv], and likewise for every format, also below a
    directory. *)
Theorem empty_stem_is_supported :
  FileFormat_is_supported (VStr ".csv") = Ok true
  /\ FileFormat_get_format (VStr ".csv") = Ok "csv"
  /\ fnmatch.fnmatch "" "*" = true
  /\ (forall f : FileFormat,
         FileFormat_is_supported (VStr ("." ++ FileFormat_value f)) = Ok true
         /\ FileFormat_get_format (VStr ("." ++ FileFormat_value f))
            = Ok (FileFormat_value f))
  /\ (forall f : FileFormat,
         FileFormat_is_supported (VStr ("/home/user/." ++ FileFormat_value f)) = Ok true
         /\ FileFormat_get_format (VStr ("/home/user/." ++ FileFormat_value f))
            = Ok (FileFormat_value f)).
Proof.
  repeat split; try reflexivity; destruct f; reflexivity.
Qed.

(** C2, the claim as written fails: invoked on a value outside the closed
    set, here the string ["STREAMING"], [proto] raises nothing and falls off
    its [if]/[elif], returning [None]. *)
Lemma proto_outside_closed_set :
  is_ComputationMode (VStr "STREAMING") = false
  /\ (forall pb : metadata_pb2,
         ComputationMode_proto pb (VStr "STREAMING") = Ok VNone)
  /\ (forall pb : metadata_pb2, ComputationMode_proto pb VNone = Ok VNone)
  /\ ~ (forall (pb : metadata_pb2) (v : pyval),
           is_ComputationMode v = false ->
           exists e : exn, ComputationMode_proto pb v = Raise e).
Proof.
  repeat split.
  intros H.
  destruct (H {| pb_PRECOMPUTED := 0; pb_CLIENT_COMPUTED := 1 |} VNone eq_refl)
    as [e He].
  discriminate.
Qed.

(** C2, amended.  [proto] maps PRECOMPUTED and CLIENT_COMPUTED to the
    corresponding codes of the protocol enumeration, so it returns a code on
    every member of the closed set; it has no failing branch of its own:
    invoked on [None], on an integer, on a string or on a member it returns
    and raises nothing. *)
Theorem proto_codes (pb : metadata_pb2) :
  ComputationMode_proto pb (VMode PRECOMPUTED) = Ok (VInt (pb_PRECOMPUTED pb))
  /\ ComputationMode_proto pb (VMode CLIENT_COMPUTED)
     = Ok (VInt (pb_CLIENT_COMPUTED pb))
  /\ (forall m : ComputationMode,
         exists code : Z, ComputationMode_proto pb (VMode m) = Ok (VInt code))
  /\ (exists r : pyval, ComputationMode_proto pb VNone = Ok r)
  /\ (forall z : Z, exists r : pyval, ComputationMode_proto pb (VInt z) = Ok r)
  /\ (forall s : string,
         exists r : pyval, ComputationMode_proto pb (VStr s) = Ok r).
Proof.
  split; [reflexivity |]. split; [reflexivity |]. split; [| split; [| split]].
  - intros [|]; eexists; reflexivity.
  - eexists; reflexivity.
  - intros z. eexists; reflexivity.
  - intros s. unfold ComputationMode_proto.
    destruct (py_eq (VStr s) (VMode PRECOMPUTED)); [eauto |].
    destruct (py_eq (VStr s) (VMode CLIENT_COMPUTED)); eauto.
Qed.

(** * Further properties of the classifier *)

Lemma last_char_append (stem suffix : string) :
  suffix <> "" -> last_char (stem ++ suffix) = last_char suffix.
Proof.
  intros Hne. induction stem as [|c stem IH]; [reflexivity |].
  simpl. rewrite <- IH.
  destruct (stem ++ suffix) eqn:E; [| reflexivity].
  destruct stem; simpl in E; [congruence | discriminate].
Qed.

Lemma ends_with_last_char (suffix name : string) :
  suffix <> "" -> ends_with suffix name -> last_char name = last_char suffix.
Proof. intros Hne [stem ->]. now apply last_char_append. Qed.

(** A name matches the pattern of at most one format: the two extensions
    end with different characters. *)
Lemma fnmatch_pattern_unique (f g : FileFormat) (name : string) :
  fnmatch.fnmatch name (FileFormat_pattern f) = true ->
  fnmatch.fnmatch name (FileFormat_pattern g) = true ->
  f = g.
Proof.
  rewrite !fnmatch_pattern_iff. intros Hf Hg.
  apply ends_with_last_char in Hf; [| destruct f; discriminate].
  apply ends_with_last_char in Hg; [| destruct g; discriminate].
  rewrite Hf in Hg. destruct f, g; try reflexivity; discriminate.
Qed.

(** Once some format matches, both loops over the declared members find
    it. *)
Lemma loops_on_match (f : FileFormat) (name : string) :
  fnmatch.fnmatch name (FileFormat_pattern f) = true ->
  is_supported_loop name FileFormat_members = true
  /\ get_format_loop name FileFormat_members = Ok (FileFormat_value f).
Proof.
  intros Hf. simpl.
  destruct (fnmatch.fnmatch name (FileFormat_pattern CSV)) eqn:Hc.
  - now rewrite (fnmatch_pattern_unique f CSV name Hf Hc).
  - destruct f; [congruence |]. now rewrite Hf.
Qed.

(** Appending text without separator to a path appends it to the base
    name. *)
Lemma basename_append (stem suffix : string) :
  occurs posixpath.sep suffix = false ->
  exists name,
    posixpath.basename (VStr stem) = Ok name
    /\ posixpath.basename (VStr (stem ++ suffix)) = Ok (name ++ suffix).
Proof.
  intros Hsuf.
  destruct (last_occurrence posixpath.sep stem) as [Habs | (pre & post & -> & Hpost)].
  - exists stem. split; [now apply basename_plain |].
    apply basename_plain. now rewrite occurs_append, Habs, Hsuf.
  - exists post. split; [now apply basename_after_separator |].
    rewrite append_assoc.
    change (String posixpath.sep post ++ suffix)
      with (String posixpath.sep (post ++ suffix)).
    apply basename_after_separator. now rewrite occurs_append, Hpost, Hsuf.
Qed.

(** A suffix without separator ends the path exactly when it ends the base
    name. *)
Lemma ends_with_basename (suffix p name : string) :
  occurs posixpath.sep suffix = false ->
  posixpath.basename (VStr p) = Ok name ->
  ends_with suffix p <-> ends_with suffix name.
Proof.
  intros Hsuf Hbase. split.
  - intros [stem ->].
    destruct (basename_append stem suffix Hsuf) as (n & _ & Hn).
    rewrite Hn in Hbase. injection Hbase as <-. now exists n.
  - intros [stem ->]. apply basename_iff in Hbase as (dir & -> & _).
    exists (dir ++ stem). now rewrite append_assoc.
Qed.

Lemma extension_has_no_separator (f : FileFormat) :
  occurs posixpath.sep ("." ++ FileFormat_value f) = false.
Proof. destruct f; reflexivity. Qed.

(** The predicate read on the whole path. *)
Lemma supported_iff_path_suffix (p : string) :
  FileFormat_is_supported (VStr p) = Ok true
  <-> ends_with ".csv" p \/ ends_with ".parquet" p.
Proof.
  destruct (basename_spec p) as (name & Hbase & _).
  rewrite (is_supported_on_basename p name Hbase).
  rewrite (ends_with_basename ".csv" p name eq_refl Hbase),
    (ends_with_basename ".parquet" p name eq_refl Hbase),
    <- is_supported_loop_iff.
  split; congruence.
Qed.

(** X1.  Whether a path is supported depends on the end of the whole path
    only: [is_supported] is true exactly when the path itself ends with
    [.csv] or [.parquet], whatever its directories are. *)
Theorem is_supported_by_path_suffix (p : string) :
  FileFormat_is_supported (VStr p) = Ok true
  <-> ends_with ".csv" p \/ ends_with ".parquet" p.
Proof. exact (supported_iff_path_suffix p). Qed.

(** X2.  [get_format] returns [v] exactly when [v] is the canonical string
    of a format and the path ends with a dot and [v].  So a name built from
    any stem, a dot and the value of a format is classified back as that
    format. *)
Theorem get_format_by_path_suffix :
  (forall p v : string,
      FileFormat_get_format (VStr p) = Ok v
      <-> exists f : FileFormat,
            v = FileFormat_value f /\ ends_with ("." ++ FileFormat_value f) p)
  /\ (forall (stem : string) (f : FileFormat),
         FileFormat_get_format (VStr (stem ++ "." ++ FileFormat_value f))
         = Ok (FileFormat_value f)).
Proof.
  assert (Hiff : forall p v : string,
             FileFormat_get_format (VStr p) = Ok v
             <-> exists f : FileFormat,
                   v = FileFormat_value f
                   /\ ends_with ("." ++ FileFormat_value f) p).
  { intros p v. destruct (basename_spec p) as (name & Hbase & _).
    rewrite (get_format_on_basename p name Hbase). split.
    - rewrite get_format_loop_find.
      destruct (find _ FileFormat_members) as [f |] eqn:Hfind; [| discriminate].
      intros H. injection H as <-. exists f. split; [reflexivity |].
      apply find_some in Hfind as [_ Hf].
      apply (ends_with_basename _ p name (extension_has_no_separator f) Hbase).
      now apply fnmatch_pattern_iff.
    - intros (f & -> & Hend).
      apply (ends_with_basename _ p name (extension_has_no_separator f) Hbase) in Hend.
      apply fnmatch_pattern_iff in Hend. now apply loops_on_match. }
  split; [exact Hiff |].
  intros stem f. apply Hiff. exists f. split; [reflexivity |]. now exists stem.
Qed.

(** X3.  The order in which the formats are tried has no influence: over
    two lists holding the same formats, in any order and with any
    repetitions, both loops give the same answer, because no name matches
    the patterns of two formats. *)
Theorem format_order_immaterial (name : string) (l1 l2 : list FileFormat) :
  (forall f : FileFormat, In f l1 <-> In f l2) ->
  get_format_loop name l1 = get_format_loop name l2
  /\ is_supported_loop name l1 = is_supported_loop name l2.
Proof.
  intros Hsame.
  set (test := fun f => fnmatch.fnmatch name (FileFormat_pattern f)).
  assert (Hfind : find test l1 = find test l2
                  \/ exists f g, find test l1 = Some f /\ find test l2 = Some g /\ f = g).
  { destruct (find test l1) as [f |] eqn:H1; destruct (find test l2) as [g |] eqn:H2.
    - right. exists f, g. repeat split.
      apply find_some in H1 as [_ H1]. apply find_some in H2 as [_ H2].
      exact (fnmatch_pattern_unique f g name H1 H2).
    - exfalso. apply find_some in H1 as [Hin H1].
      apply Hsame in Hin. apply (find_none _ _ H2) in Hin.
      unfold test in *. congruence.
    - exfalso. apply find_some in H2 as [Hin H2].
      apply Hsame in Hin. apply (find_none _ _ H1) in Hin.
      unfold test in *. congruence.
    - now left. }
  rewrite !get_format_loop_find, !is_supported_loop_existsb, !existsb_find.
  fold test.
  destruct Hfind as [-> | (f & g & -> & -> & ->)]; split; reflexivity.
Qed.

Lemma format_order_immaterial_witness :
  (forall f : FileFormat, In f [PARQUET; CSV; PARQUET] <-> In f FileFormat_members)
  /\ get_format_loop "data.parquet" [PARQUET; CSV; PARQUET] = Ok "parquet"
  /\ is_supported_loop "data.parquet" [PARQUET; CSV; PARQUET] = true.
Proof.
  assert (Hsame : forall f : FileFormat,
             In f [PARQUET; CSV; PARQUET] <-> In f FileFormat_members)
    by (intros f; simpl; tauto).
  split; [exact Hsame |].
  destruct (format_order_immaterial "data.parquet" _ _ Hsame) as [Hg Hs].
  split; [rewrite Hg | rewrite Hs]; reflexivity.
Defined.

(** X4.  Directory components play no part: for a name without separator,
    both methods answer for [dir/name] what they answer for [name] alone. *)
Theorem directory_is_irrelevant (dir name : string) :
  occurs posixpath.sep name = false ->
  FileFormat_is_supported (VStr (dir ++ "/" ++ name))
  = FileFormat_is_supported (VStr name)
  /\ FileFormat_get_format (VStr (dir ++ "/" ++ name))
     = FileFormat_get_format (VStr name).
Proof.
  intros Hname.
  pose proof (basename_after_separator dir name Hname) as Hdir.
  pose proof (basename_plain name Hname) as Hplain.
  change (String posixpath.sep name) with ("/" ++ name) in Hdir.
  now rewrite (is_supported_on_basename _ _ Hdir), (is_supported_on_basename _ _ Hplain),
    (get_format_on_basename _ _ Hdir), (get_format_on_basename _ _ Hplain).
Qed.

Lemma directory_is_irrelevant_witness :
  occurs posixpath.sep "part-0.parquet" = false
  /\ FileFormat_is_supported (VStr ("s3://bucket/a.csv" ++ "/" ++ "part-0.parquet"))
     = FileFormat_is_supported (VStr "part-0.parquet")
  /\ FileFormat_get_format (VStr ("s3://bucket/a.csv" ++ "/" ++ "part-0.parquet"))
     = FileFormat_get_format (VStr "part-0.parquet").
Proof.
  split; [reflexivity |].
  apply (directory_is_irrelevant "s3://bucket/a.csv" "part-0.parquet").
  reflexivity.
Defined.

(** X5.  A path that ends with the separator has the empty base name: it is
    never supported, and [get_format] raises with a message that names
    nothing, even when the directory itself carries an extension. *)
Theorem trailing_separator_unsupported (p : string) :
  FileFormat_is_supported (VStr (p ++ "/")) = Ok false
  /\ FileFormat_get_format (VStr (p ++ "/"))
     = Raise (ValueError (Text "File format not supported: ")).
Proof.
  pose proof (basename_after_separator p "" eq_refl) as Hbase.
  change (String posixpath.sep "") with "/" in Hbase.
  now rewrite (is_supported_on_basename _ _ Hbase), (get_format_on_basename _ _ Hbase).
Qed.

Lemma is_supported_str_total (p : string) :
  exists b : bool, FileFormat_is_supported (VStr p) = Ok b.
Proof.
  destruct (basename_spec p) as (name & Hbase & _).
  rewrite (is_supported_on_basename p name Hbase). eauto.
Qed.

(** A path whose last character is neither [v] nor [t] is not supported. *)
Lemma unsupported_by_last_char (p : string) :
  last_char p <> Some "v"%char -> last_char p <> Some "t"%char ->
  FileFormat_is_supported (VStr p) = Ok false.
Proof.
  intros Hv Ht. destruct (is_supported_str_total p) as [[|] Hb]; [| exact Hb].
  exfalso. apply supported_iff_path_suffix in Hb as [H | H];
    apply ends_with_last_char in H; try discriminate; simpl in H; congruence.
Qed.

(** A suffix no longer than [b] that ends [stem ++ b] ends [b]. *)
Lemma ends_with_append_short (a stem b : string) :
  String.length a <= String.length b ->
  ends_with a (stem ++ b) -> ends_with a b.
Proof.
  intros Hlen [s Hs]. revert s Hs.
  induction stem as [|c stem IH]; intros s Hs.
  - now exists s.
  - destruct s as [|d s]; simpl in Hs.
    + exfalso. subst a. simpl in Hlen. rewrite append_length in Hlen. lia.
    + injection Hs as _ Hs. now apply (IH s).
Qed.

Lemma not_ends_with_append (a stem b : string) :
  String.length a = String.length b -> a <> b -> ~ ends_with a (stem ++ b).
Proof.
  intros Hlen Hne H. apply ends_with_append_short in H; [| lia].
  destruct H as [s Hs]. apply Hne.
  destruct s as [|c s]; [now subst |].
  exfalso. apply (f_equal String.length) in Hs. simpl in Hs.
  rewrite append_length in Hs. lia.
Qed.

(** X6.  Nothing is normalised before matching: whatever the stem, an
    extension in capitals or in mixed case, or one followed by a space or a
    dot, is not supported. *)
Theorem no_normalisation (stem : string) :
  FileFormat_is_supported (VStr (stem ++ ".CSV")) = Ok false
  /\ FileFormat_is_supported (VStr (stem ++ ".PARQUET")) = Ok false
  /\ FileFormat_is_supported (VStr (stem ++ ".Csv")) = Ok false
  /\ FileFormat_is_supported (VStr (stem ++ ".Parquet")) = Ok false
  /\ FileFormat_is_supported (VStr (stem ++ ".csv ")) = Ok false
  /\ FileFormat_is_supported (VStr (stem ++ ".parquet ")) = Ok false
  /\ FileFormat_is_supported (VStr (stem ++ ".csv.")) = Ok false.
Proof.
  assert (Hlast : forall tail : string,
             tail <> "" ->
             last_char tail <> Some "v"%char -> last_char tail <> Some "t"%char ->
             FileFormat_is_supported (VStr (stem ++ tail)) = Ok false).
  { intros tail Hne Hv Ht.
    apply unsupported_by_last_char; now rewrite last_char_append. }
  assert (Hmixed : forall tail : string,
             ~ ends_with ".csv" (stem ++ tail) ->
             ~ ends_with ".parquet" (stem ++ tail) ->
             FileFormat_is_supported (VStr (stem ++ tail)) = Ok false).
  { intros tail Hc Hp.
    destruct (is_supported_str_total (stem ++ tail)) as [[|] Hb]; [| exact Hb].
    apply supported_iff_path_suffix in Hb. tauto. }
  repeat split; try (apply Hlast; simpl; congruence).
  - apply Hmixed.
    + apply not_ends_with_append; [reflexivity | discriminate].
    + intros H. apply ends_with_last_char in H; [| discriminate].
      rewrite last_char_append in H; discriminate.
  - apply Hmixed.
    + intros H. apply ends_with_last_char in H; [| discriminate].
      rewrite last_char_append in H; discriminate.
    + apply not_ends_with_append; [reflexivity | discriminate].
Qed.

(** X7.  On [None], on an integer and on a [ComputationMode] member both
    methods raise [TypeError] while taking the base name, before any pattern
    is tried; on a string neither method raises a [TypeError], and whatever
    [get_format] raises there is its own [ValueError]. *)
Theorem classifier_type_errors :
  FileFormat_is_supported VNone = Raise (TypeError (NotAPath VNone))
  /\ FileFormat_get_format VNone = Raise (TypeError (NotAPath VNone))
  /\ (forall z : Z,
         FileFormat_is_supported (VInt z) = Raise (TypeError (NotAPath (VInt z)))
         /\ FileFormat_get_format (VInt z) = Raise (TypeError (NotAPath (VInt z))))
  /\ (forall m : ComputationMode,
         FileFormat_is_supported (VMode m) = Raise (TypeError (NotAPath (VMode m)))
         /\ FileFormat_get_format (VMode m) = Raise (TypeError (NotAPath (VMode m))))
  /\ (forall (s : string) (msg : message),
         FileFormat_is_supported (VStr s) <> Raise (TypeError msg)
         /\ FileFormat_get_format (VStr s) <> Raise (TypeError msg))
  /\ (forall (s : string) (e : exn),
         FileFormat_get_format (VStr s) = Raise e ->
         exists text : string, e = ValueError (Text text)).
Proof.
  split; [reflexivity |]. split; [reflexivity |].
  split; [intros z; split; reflexivity |].
  split; [intros m; split; reflexivity |].
  assert (Hget : forall (s : string) (e : exn),
             FileFormat_get_format (VStr s) = Raise e ->
             exists text : string, e = ValueError (Text text)).
  { intros s e H. destruct (basename_spec s) as (name & Hbase & _).
    rewrite (get_format_on_basename s name Hbase) in H.
    destruct (loops_agree name FileFormat_members)
      as [(_ & f & _ & Hg) | (_ & Hg)]; rewrite Hg in H; [discriminate |].
    injection H as <-. eauto. }
  split; [| exact Hget].
  intros s msg. split.
  - destruct (is_supported_str_total s) as [b Hb]. rewrite Hb. discriminate.
  - intros H. apply Hget in H as [text H]. discriminate.
Qed.

(** X8.  Looking a member's value up gives the member back, a successful
    lookup returns a member with the looked-up value, and so no two members
    of [ScalarType] share a value. *)
Theorem ScalarType_call_roundtrip :
  (forall e : ScalarType, ScalarType_call (VStr (ScalarType_value e)) = Ok e)
  /\ (forall (s : string) (e : ScalarType),
         ScalarType_call (VStr s) = Ok e -> ScalarType_value e = s)
  /\ (forall e1 e2 : ScalarType,
         ScalarType_value e1 = ScalarType_value e2 -> e1 = e2).
Proof.
  assert (Hrt : forall e : ScalarType,
             ScalarType_call (VStr (ScalarType_value e)) = Ok e)
    by (intros e; destruct e; reflexivity).
  split; [exact Hrt |]. split.
  - intros s e. unfold ScalarType_call.
    destruct (find _ ScalarType_members) as [e' |] eqn:Hfind; [| discriminate].
    intros H. injection H as <-. apply find_some in Hfind as [_ Heq].
    now apply String.eqb_eq in Heq.
  - intros e1 e2 Heq. pose proof (Hrt e1) as H1. rewrite Heq, Hrt in H1.
    congruence.
Qed.

(** X9.  On [None], on an integer and on a [ComputationMode] member the
    lookup [cls(value)] raises its [ValueError], which [has_value] catches:
    it returns false. *)
Theorem has_value_rejects_non_strings :
  (ScalarType_call VNone = Raise (ValueError (NotAValid VNone "ScalarType"))
   /\ ScalarType_has_value VNone = Ok false)
  /\ (forall z : Z,
         ScalarType_call (VInt z)
         = Raise (ValueError (NotAValid (VInt z) "ScalarType"))
         /\ ScalarType_has_value (VInt z) = Ok false)
  /\ (forall m : ComputationMode,
         ScalarType_call (VMode m)
         = Raise (ValueError (NotAValid (VMode m) "ScalarType"))
         /\ ScalarType_has_value (VMode m) = Ok false).
Proof.
  split; [split; reflexivity |]. split.
  - intros z. split; reflexivity.
  - intros m. destruct m; split; reflexivity.
Qed.

(** X10.  [has_value] accepts exactly the strings that [get_values]
    lists. *)
Theorem has_value_iff_listed (s : string) :
  ScalarType_has_value (VStr s) = Ok true <-> In s ScalarType_get_values.
Proof.
  rewrite has_value_true_iff, ScalarType_canonical_values. reflexivity.
Qed.

(** X11.  The overridden equality still tells members apart; against a
    string it gives the same answer in both operand orders; against [None]
    and against an integer it is false in both operand orders. *)
Theorem ComputationMode_eq_members :
  (forall m m' : ComputationMode,
      ComputationMode_eq m (VMode m') = true <-> m = m')
  /\ (forall (m : ComputationMode) (s : string),
         py_eq (VMode m) (VStr s) = py_eq (VStr s) (VMode m))
  /\ (forall (m : ComputationMode) (z : Z),
         py_eq (VMode m) (VInt z) = false /\ py_eq (VInt z) (VMode m) = false)
  /\ (forall m : ComputationMode,
         py_eq (VMode m) VNone = false /\ py_eq VNone (VMode m) = false).
Proof.
  split; [| split; [| split]].
  - intros m m'. split.
    + destruct m, m'; simpl; congruence.
    + intros ->. destruct m'; reflexivity.
  - intros m s. reflexivity.
  - intros m z. split; reflexivity.
  - intros m. split; reflexivity.
Qed.

(** X12.  [proto] cannot tell a member from the raw string of its canonical
    form: on ["PRECOMPUTED"] and on ["CLIENT_COMPUTED"] it returns the code
    of the member, and on every other string, case variants included, it
    returns [None]. *)
Theorem proto_on_strings (pb : metadata_pb2) :
  ComputationMode_proto pb (VStr "PRECOMPUTED") = Ok (VInt (pb_PRECOMPUTED pb))
  /\ ComputationMode_proto pb (VStr "CLIENT_COMPUTED")
     = Ok (VInt (pb_CLIENT_COMPUTED pb))
  /\ (forall s : string,
         s <> "PRECOMPUTED" -> s <> "CLIENT_COMPUTED" ->
         ComputationMode_proto pb (VStr s) = Ok VNone)
  /\ ComputationMode_proto pb (VStr "precomputed") = Ok VNone.
Proof.
  split; [reflexivity |]. split; [reflexivity |]. split; [| reflexivity].
  intros s H1 H2. unfold ComputationMode_proto, py_eq, str_eq.
  apply not_eq_sym in H1, H2. apply String.eqb_neq in H1, H2.
  change (ComputationMode_value PRECOMPUTED) with "PRECOMPUTED".
  change (ComputationMode_value CLIENT_COMPUTED) with "CLIENT_COMPUTED".
  now rewrite H1, H2.
Qed.

(** X13.  [proto] sends the two members to different results exactly when
    the protocol enumeration gives them different codes. *)
Theorem proto_injective_iff (pb : metadata_pb2) :
  (forall m m' : ComputationMode,
      ComputationMode_proto pb (VMode m) = ComputationMode_proto pb (VMode m') ->
      m = m')
  <-> pb_PRECOMPUTED pb <> pb_CLIENT_COMPUTED pb.
Proof.
  split.
  - intros Hinj Heq.
    assert (H : PRECOMPUTED = CLIENT_COMPUTED); [| discriminate].
    apply Hinj.
    change (@Ok pyval (VInt (pb_PRECOMPUTED pb)) = Ok (VInt (pb_CLIENT_COMPUTED pb))).
    now rewrite Heq.
  - intros Hne m m' H. destruct m, m'; try reflexivity;
      [ change (@Ok pyval (VInt (pb_PRECOMPUTED pb))
                = Ok (VInt (pb_CLIENT_COMPUTED pb))) in H
      | change (@Ok pyval (VInt (pb_CLIENT_COMPUTED pb))
                = Ok (VInt (pb_PRECOMPUTED pb))) in H ];
      congruence.
Qed.
